(** * Stack diff reporting and security approval (packages/aws-cdk/lib/diff.ts)

    A shallow embedding of [printStackDiff], [printSecurityDiff],
    [difRequiresApproval] and [buildLogicalToPathMap], followed by the
    properties of the reporting and approval pipeline.

    Conventions of the embedding:
    - a TypeScript function that writes to a stream, logs or throws becomes a
      computation in the monad [IO], which returns a completion (a value or a
      thrown [Error]) together with the ordered list of effects it performed;
    - the structural diff algorithm [cfnDiff.diffTemplate] and the colouring
      function [colors.green] are external: they are variables of the
      section holding the functions;
    - the process-wide [PluginHost.instance] is passed explicitly;
    - a rendering operation is code of cloudformation-diff or of a plug-in:
      its invocation is recorded as an effect with the arguments it was
      given, and it is taken to return normally. *)

From Stdlib Require Import List Bool Arith Lia.
From stdpp Require Import base list strings.
Import ListNotations.

Local Open Scope string_scope.
Local Open Scope list_scope.

(** ** JavaScript values *)

(** The old template has the TypeScript type [any], and the template of an
    artifact is a plain JSON document. *)
#[warnings="-register-all"] Inductive Json : Type :=
| JNull
| JBool (b : bool)
| JNumber (n : Z)
| JString (s : string)
| JArray (items : list Json)
| JObject (fields : list (string * Json)).

(** A JavaScript [Error], identified by its message. *)
Record Error : Type := { message : string }.

(** ** Effects *)

Inductive Completion (A : Type) : Type :=
| Normal (value : A)
| Throw (err : Error).
Arguments Normal {A} value.
Arguments Throw {A} err.

(** ** Plain JavaScript objects *)
Module JsObject.

(** An object created by [{}] whose properties hold strings, as the list of
    its own properties in the order of their creation. *)
Abbreviation t := (list (string * string)).

(** [{}] *)
Definition create : t := [].

(** The value of the own property [key], when the object has one. *)
Fixpoint getOwn (o : t) (key : string) : option string :=
  match o with
  | [] => None
  | (k, v) :: rest => if String.eqb k key then Some v else getOwn rest key
  end.

(** Creation or overwriting of the own property [key]: an existing property
    keeps its place, a new one comes last. *)
Fixpoint defineOwn (o : t) (key value : string) : t :=
  match o with
  | [] => [(key, value)]
  | (k, v) :: rest =>
      if String.eqb k key then (k, value) :: rest
      else (k, v) :: defineOwn rest key value
  end.

(** The assignment [o[key] = value] of a string. The key '__proto__' reaches
    the accessor that [{}] inherits, whose setter ignores a value that is
    neither an object nor null: the object stays as it is. Every other key
    creates or overwrites an own property. *)
Definition set (o : t) (key value : string) : t :=
  if String.eqb key "__proto__" then o else defineOwn o key value.

End JsObject.

(** ** @aws-cdk/cloud-assembly-schema *)
Module cxschema.

Inductive ArtifactMetadataEntryType : Type :=
| ASSET
| INFO
| WARN
| ERROR
| LOGICAL_ID
| STACK_TAGS.

#[global] Instance ArtifactMetadataEntryType_eq_dec :
  EqDecision ArtifactMetadataEntryType.
Proof. solve_decision. Defined.

End cxschema.

(** ** @aws-cdk/cx-api *)
Module cxapi.

(** Modelled from the spec: the artifact classes of cx-api are not part of
    the sources at hand. A metadata entry is [{ type, path, data }]; the
    data of the entries read here is used as a string ([md.data as
    string]). *)
Record MetadataEntryResult : Type := {
  type : cxschema.ArtifactMetadataEntryType;
  path : string;
  data : string
}.

(** Modelled from the spec: a stack artifact carries a template and an
    ordered collection of metadata entries. *)
Record CloudFormationStackArtifact : Type := {
  stackName : string;
  template : Json;
  metadata : list MetadataEntryResult
}.

(** Modelled from the spec: [findMetadataByType] of cx-api scans the
    artifact's metadata for the entries of one kind, in metadata order. *)
Definition findMetadataByType (stack : CloudFormationStackArtifact)
    (t : cxschema.ArtifactMetadataEntryType) : list MetadataEntryResult :=
  List.filter (fun md => bool_decide (type md = t)) (metadata stack).

End cxapi.

(** ** @aws-cdk/cloudformation-diff *)
Module cfnDiff.

(** Modelled from the spec: a per-resource change record, tagged with the
    old and the new resource type (absent for an added or removed
    resource). *)
Record ResourceDifference : Type := {
  oldResourceType : option string;
  newResourceType : option string
}.

(** Modelled from the spec: the class [TemplateDiff] of cloudformation-diff
    is not part of the sources at hand. A diff holds the ordered sequence of
    the nullable change records of its resources (the reporter guards
    against its absence), the number of its differences outside the
    resources, and the two permission flags. *)
Record TemplateDiff : Type := {
  resources : option (list (option ResourceDifference));
  otherDifferences : nat;
  permissionsAnyChanges : bool;
  permissionsBroadened : bool
}.

(** The change records that are there: a null record is no change. *)
Definition presentChanges (changes : list (option ResourceDifference)) : nat :=
  List.length
    (List.filter (fun change => match change with Some _ => true | None => false end)
                 changes).

(** Modelled from the spec: [diff.differenceCount] is the number of
    differences of the diff as it is when read. The reporter reads it after
    it has assigned [diff.resources], and returns it as "the count of
    differences that were rendered". *)
Definition differenceCount (diff : TemplateDiff) : nat :=
  otherDifferences diff
  + match resources diff with
    | Some changes => presentChanges changes
    | None => 0
    end.

(** Modelled from the spec: [diff.isEmpty] is true iff no changes of any
    kind exist, so that an empty diff has a count of zero. *)
Definition isEmpty (diff : TemplateDiff) : bool :=
  Nat.eqb (differenceCount diff) 0.

(** The assignment [diff.resources = rs]. *)
Definition set_resources (diff : TemplateDiff)
    (rs : list (option ResourceDifference)) : TemplateDiff :=
  {| resources := Some rs;
     otherDifferences := otherDifferences diff;
     permissionsAnyChanges := permissionsAnyChanges diff;
     permissionsBroadened := permissionsBroadened diff |}.

(** A writable sink: the two process streams, or one supplied by the
    caller. *)
Inductive FormatStream : Type :=
| process_stderr
| process_stdout
| writable (id : nat).

(** [{ [id: string]: string }], a plain object. *)
Abbreviation LogicalPathMap := JsObject.t.

End cfnDiff.

Import cxschema cxapi cfnDiff.

(** ** Renderers and the plugin host *)

(** A source for a stack diff output formatter. Its [getFormatter] is code
    of the plug-in; a call of it, followed by one rendering operation of the
    formatter it returns, is observed as a [Render] effect carrying the
    arguments the formatter was bound to. *)
Record DifferenceFormatterSource : Type := { name : string }.

(** [PluginHost.instance]: the registered sources, in registration order. *)
Record PluginHost : Type := {
  differenceFormatterSources : list DifferenceFormatterSource
}.

(** Who renders: the built-in functions of cloudformation-diff
    ([cfnDiff.formatDifferences], [cfnDiff.formatSecurityChanges]) or the
    formatter obtained from a registered source. *)
Inductive Renderer : Type :=
| BuiltIn
| FromSource (source : DifferenceFormatterSource).

(** The two rendering operations of a [DifferenceFormatter]. *)
Inductive Operation : Type :=
| formatDifferences
| formatSecurityChanges.

Inductive Effect : Type :=
| print (msg : string)      (* [print] of ./logging *)
| warning (msg : string)    (* [warning] of ./logging *)
| Render (by_ : Renderer) (op : Operation)
         (stream : FormatStream) (templateDiff : TemplateDiff)
         (logicalToPathMap : option LogicalPathMap) (context : option nat).

(** ** The monad of effectful computations *)

Definition IO (A : Type) : Type := (Completion A * list Effect)%type.

Definition ret {A} (a : A) : IO A := (Normal a, []).

Definition bind {A B} (m : IO A) (k : A -> IO B) : IO B :=
  match m with
  | (Normal a, before) =>
      match k a with
      | (r, after) => (r, before ++ after)
      end
  | (Throw e, before) => (Throw e, before)
  end.

Definition emit (e : Effect) : IO unit := (Normal tt, [e]).

Definition lift {A} (c : Completion A) : IO A := (c, []).

Definition completion {A} (m : IO A) : Completion A := fst m.
Definition effects {A} (m : IO A) : list Effect := snd m.

Declare Scope io_scope.
Delimit Scope io_scope with io.
Notation "x <- m ;; k" := (bind m (fun x => k))
  (at level 100, m at next level, right associativity) : io_scope.
Notation "m ;; k" := (bind m (fun _ => k))
  (at level 100, right associativity) : io_scope.

(** [Array.prototype.forEach] with an effectful callback. *)
Fixpoint forEach {A} (l : list A) (callback : A -> IO unit) : IO unit :=
  match l with
  | [] => ret tt
  | x :: rest => bind (callback x) (fun _ => forEach rest callback)
  end.

(** ** lib/diff.ts *)

(** The enum [RequireApproval] and the string value of each member. *)
Inductive RequireApproval : Type :=
| Never
| AnyChange
| Broadening.

Definition RequireApproval_value (level : RequireApproval) : string :=
  match level with
  | Never => "never"
  | AnyChange => "any-change"
  | Broadening => "broadening"
  end.

(** [function difRequiresApproval(diff, requireApproval)]: at run time the
    level is a string, compared by the [switch] with the values of the
    enum. *)
Definition difRequiresApproval (diff : TemplateDiff) (requireApproval : string)
    : Completion bool :=
  if String.eqb requireApproval (RequireApproval_value Never) then
    Normal false
  else if String.eqb requireApproval (RequireApproval_value AnyChange) then
    Normal (permissionsAnyChanges diff)
  else if String.eqb requireApproval (RequireApproval_value Broadening) then
    Normal (permissionsBroadened diff)
  else
    Throw {| message := "Unrecognized approval level: " +:+ requireApproval |}.

(** [function buildLogicalToPathMap(stack)]: the loop assigns
    [map[md.data] = md.path] for each entry, in order. *)
Definition buildLogicalToPathMap (stack : CloudFormationStackArtifact)
    : LogicalPathMap :=
  fold_left (fun map md => JsObject.set map (data md) (path md))
            (findMetadataByType stack LOGICAL_ID)
            JsObject.create.

(** The callback given to [diff.resources.filter] in [printStackDiff]. *)
Definition keepChange (change : option ResourceDifference) : bool :=
  match change with
  | None => true
  | Some change =>
      if bool_decide (newResourceType change = Some "AWS::CDK::Metadata") then false
      else if bool_decide (oldResourceType change = Some "AWS::CDK::Metadata") then false
      else true
  end.

(** Lines 47-55 of [printStackDiff]: filter out 'AWS::CDK::Metadata'
    resources from the template diff. *)
Definition filterMetadataResources (strict : bool) (diff : TemplateDiff)
    : TemplateDiff :=
  match resources diff with
  | Some changes =>
      if negb strict then set_resources diff (List.filter keepChange changes)
      else diff
  | None => diff
  end.

(** [stream || process.stderr] *)
Definition orStderr (stream : option FormatStream) : FormatStream :=
  match stream with
  | Some s => s
  | None => process_stderr
  end.

Section Diff.

(** [cfnDiff.diffTemplate], the external structural diff algorithm. *)
Variable diffTemplate : Json -> Json -> TemplateDiff.

(** [colors.green] of colors/safe. *)
Variable colors_green : string -> string.

Definition printStackDiff (host : PluginHost)
    (oldTemplate : Json) (newTemplate : CloudFormationStackArtifact)
    (strict : bool) (context : nat) (stream : option FormatStream) : IO nat :=
  (let diff := diffTemplate oldTemplate (template newTemplate) in
   let diff := filterMetadataResources strict diff in
   (if negb (isEmpty diff) then
      if Nat.ltb 0 (List.length (differenceFormatterSources host)) then
        forEach (differenceFormatterSources host) (fun source =>
          emit (Render (FromSource source) formatDifferences
                  (orStderr stream) diff
                  (Some (buildLogicalToPathMap newTemplate)) (Some context)))
      else
        emit (Render BuiltIn formatDifferences
                (orStderr stream) diff
                (Some (buildLogicalToPathMap newTemplate)) (Some context))
    else
      emit (print (colors_green "There were no differences"))) ;;
   ret (differenceCount diff))%io.

Definition approvalWarning (requireApproval : string) : string :=
  "This deployment will make potentially sensitive changes according to your current security approval level (--require-approval "
  +:+ requireApproval +:+ ").".

Definition confirmWarning : string :=
  "Please confirm you intend to make the following modifications:"
  +:+ String (Ascii.ascii_of_nat 10) EmptyString.

Definition printSecurityDiff (host : PluginHost)
    (oldTemplate : Json) (newTemplate : CloudFormationStackArtifact)
    (requireApproval : string) : IO bool :=
  (let diff := diffTemplate oldTemplate (template newTemplate) in
   required <- lift (difRequiresApproval diff requireApproval) ;;
   if required then
     emit (warning (approvalWarning requireApproval)) ;;
     emit (warning confirmWarning) ;;
     (if Nat.ltb 0 (List.length (differenceFormatterSources host)) then
        forEach (differenceFormatterSources host) (fun source =>
          emit (Render (FromSource source) formatSecurityChanges
                  process_stdout diff
                  (Some (buildLogicalToPathMap newTemplate)) None))
      else
        emit (Render BuiltIn formatSecurityChanges
                process_stdout diff
                (Some (buildLogicalToPathMap newTemplate)) None)) ;;
     ret true
   else
     ret false)%io.

End Diff.

(** ** The specification's view of the approval policy *)

(** The approval table of the specification: [Never] is always false,
    [AnyChange] asks for approval when permissions changed at all,
    [Broadening] when a change widens access. *)
Definition approvalPolicy (permissionsAnyChanges permissionsBroadened : bool)
    (level : RequireApproval) : bool :=
  match level with
  | Never => false
  | AnyChange => permissionsAnyChanges
  | Broadening => permissionsBroadened
  end.

(** ** Observations on effects *)

(** The diff a rendering effect was given. *)
Definition renderedDiff (e : Effect) : option TemplateDiff :=
  match e with
  | Render _ _ _ diff _ _ => Some diff
  | _ => None
  end.

(** The renderer behind a rendering effect. *)
Definition rendererOf (e : Effect) : option Renderer :=
  match e with
  | Render r _ _ _ _ _ => Some r
  | _ => None
  end.

(** A change record is about the bookkeeping resource type when its old or
    its new type is 'AWS::CDK::Metadata'. *)
Definition isMetadataChange (change : ResourceDifference) : Prop :=
  oldResourceType change = Some "AWS::CDK::Metadata"
  \/ newResourceType change = Some "AWS::CDK::Metadata".

(** The rendering effects of one operation, as selected from the host:
    one per registered source in registration order, or the built-in
    renderer alone when nothing is registered. *)
Definition rendering (host : PluginHost) (op : Operation)
    (stream : FormatStream) (diff : TemplateDiff)
    (map : option LogicalPathMap) (context : option nat) : list Effect :=
  match differenceFormatterSources host with
  | [] => [Render BuiltIn op stream diff map context]
  | sources =>
      List.map (fun source => Render (FromSource source) op stream diff map context)
               sources
  end.

(** The artifact without its metadata entries of kind [t]. *)
Definition withoutMetadataOfType (t : ArtifactMetadataEntryType)
    (stack : CloudFormationStackArtifact) : CloudFormationStackArtifact :=
  {| stackName := stackName stack;
     template := template stack;
     metadata :=
       List.filter (fun md => negb (bool_decide (type md = t))) (metadata stack) |}.

(** ** Sample data, after test/diff.test.ts *)

(** Stack 'C' of the test suite: its metadata carries an ERROR entry at
    '/resource'. *)
Definition stackC : CloudFormationStackArtifact :=
  {| stackName := "C";
     template := JObject [("resource", JString "C")];
     metadata := [ {| type := ERROR; path := "/resource"; data := "this is an error" |} ] |}.

(** Stack 'D', whose deployed template equals the new one. *)
Definition stackD : CloudFormationStackArtifact :=
  {| stackName := "D";
     template := JObject [("resource", JString "D")];
     metadata := [] |}.

(** A stack whose bucket was given two construct paths in turn. *)
Definition stackTwoPaths : CloudFormationStackArtifact :=
  {| stackName := "E";
     template := JObject [("Resources", JObject [("Bucket1", JObject [])])];
     metadata :=
       [ {| type := LOGICAL_ID; path := "/E/Old/Resource"; data := "Bucket1" |};
         {| type := WARN; path := "/E/Warned"; data := "Bucket1" |};
         {| type := LOGICAL_ID; path := "/E/New/Resource"; data := "Bucket1" |} ] |}.

Definition bucketAdded : ResourceDifference :=
  {| oldResourceType := None; newResourceType := Some "AWS::S3::Bucket" |}.

Definition metadataChanged : ResourceDifference :=
  {| oldResourceType := Some "AWS::CDK::Metadata";
     newResourceType := Some "AWS::CDK::Metadata" |}.

(** A diff with one added bucket, an unchanged resource and a change of the
    bookkeeping resource. *)
Definition diffBucketAndMetadata : TemplateDiff :=
  {| resources := Some [Some bucketAdded; None; Some metadataChanged];
     otherDifferences := 0;
     permissionsAnyChanges := false;
     permissionsBroadened := false |}.

(** The diff of two equal templates. *)
Definition diffNothing : TemplateDiff :=
  {| resources := Some [];
     otherDifferences := 0;
     permissionsAnyChanges := false;
     permissionsBroadened := false |}.

(** A diff whose only change is one of the bookkeeping resource. *)
Definition diffMetadataOnly : TemplateDiff :=
  {| resources := Some [Some metadataChanged];
     otherDifferences := 0;
     permissionsAnyChanges := false;
     permissionsBroadened := false |}.

(** A diff with one added bucket and an unchanged resource. *)
Definition diffBucketOnly : TemplateDiff :=
  {| resources := Some [Some bucketAdded; None];
     otherDifferences := 0;
     permissionsAnyChanges := false;
     permissionsBroadened := false |}.


(** A diff algorithm that answers [diff] whatever the templates. *)
Definition answering (diff : TemplateDiff) : Json -> Json -> TemplateDiff :=
  fun _ _ => diff.

(** A stand-in for [colors.green]: the text within the ANSI codes of green. *)
Definition ansiGreen (s : string) : string :=
  String (Ascii.ascii_of_nat 27) "[32m" +:+ s +:+ String (Ascii.ascii_of_nat 27) "[39m".

Definition noPlugins : PluginHost := {| differenceFormatterSources := [] |}.

Definition twoPlugins : PluginHost :=
  {| differenceFormatterSources := [ {| name := "cool-test" |}; {| name := "json" |} ] |}.

(** ** test/diff.test.ts: the formatter and the stream of the test suite *)

Module TestDifferenceFormatter.

(** What a [DifferenceFormatter] is bound to at construction: the stream, the
    diff, the path map and the context, read back by the test's class as
    [this.stream], [this.templateDiff], [this.logicalToPathMap] and
    [this.context]. *)
Record DifferenceFormatter : Type := {
  stream : FormatStream;
  templateDiff : TemplateDiff;
  logicalToPathMap : option LogicalPathMap;
  context : option nat
}.

(** The values handed to [JSON.stringify]. *)
Inductive Any : Type :=
| ofTemplateDiff (diff : TemplateDiff)
| ofLogicalPathMap (map : option LogicalPathMap)
| ofContext (context : option nat).

(** One call of [stream.write]: the stream and the chunk. *)
Abbreviation Write := (FormatStream * string)%type.

Section Methods.

(** [JSON.stringify], external. *)
Variable JSON_stringify : Any -> string.

(** [formatSecurityChanges(): void] *)
Definition formatSecurityChanges (this : DifferenceFormatter) : list Write :=
  [ (stream this, "This is TestDifferenceFormatter.formatSecurityChanges") ].

(** [formatDifferences(): void], which starts with
    [this.formatSecurityChanges()]. *)
Definition formatDifferences (this : DifferenceFormatter) : list Write :=
  formatSecurityChanges this
  ++ [ (stream this, "This is TestDifferenceFormatter.formatDifferences");
       (stream this, JSON_stringify (ofTemplateDiff (templateDiff this)));
       (stream this, JSON_stringify (ofLogicalPathMap (logicalToPathMap this)));
       (stream this, JSON_stringify (ofContext (context this))) ].

End Methods.

(** [getFormatter] of the source that [beforeEach] sets up:
    [new TestDifferenceFormatter(stream, templateDiff, logicalToPathMap, context)]. *)
Definition getFormatter (stream : FormatStream) (templateDiff : TemplateDiff)
    (logicalToPathMap : option LogicalPathMap) (context : option nat)
    : DifferenceFormatter :=
  Build_DifferenceFormatter stream templateDiff logicalToPathMap context.

(** The source that [beforeEach] sets up. *)
Definition differenceFormatterSource : DifferenceFormatterSource :=
  {| name := "cool-test" |}.

End TestDifferenceFormatter.

(** The chunks written when the renderings recorded in an effect are carried
    out by the formatter of the test suite: a rendering by a registered
    source runs the operation on the formatter that [getFormatter] returns
    for the recorded arguments; the other effects are not its doing. *)
Definition writtenByTestFormatter
    (JSON_stringify : TestDifferenceFormatter.Any -> string) (e : Effect)
    : list TestDifferenceFormatter.Write :=
  match e with
  | Render (FromSource _) op stream diff map context =>
      let formatter := TestDifferenceFormatter.getFormatter stream diff map context in
      match op with
      | formatDifferences =>
          TestDifferenceFormatter.formatDifferences JSON_stringify formatter
      | formatSecurityChanges =>
          TestDifferenceFormatter.formatSecurityChanges formatter
      end
  | _ => []
  end.

Module StringWritable.

Section Class.

(** The state of a [StringDecoder] and the [Buffer]s of Node, external. *)
Variable Decoder : Type.
Variable Buffer : Type.

(** A chunk ([chunk: any]): a string or a [Buffer]. *)
Inductive Chunk : Type :=
| text (s : string)
| buffer (b : Buffer).

(** [decoder.write(chunk)] and [decoder.end()]: the decoded text and the
    decoder afterwards. *)
Variable decoder_write : Decoder -> Chunk -> string * Decoder.
Variable decoder_end : Decoder -> string * Decoder.

(** [Buffer.prototype.toString], used when [+=] meets a [Buffer]. *)
Variable Buffer_toString : Buffer -> string.

Definition toString (chunk : Chunk) : string :=
  match chunk with
  | text s => s
  | buffer b => Buffer_toString b
  end.

(** [class StringWritable extends Writable]: its two fields. *)
Record StringWritable : Type := {
  data : string;
  _decoder : Decoder
}.

(** The constructor, given the decoder that [new StringDecoder(...)]
    yields: [this.data = '']. *)
Definition new (decoder : Decoder) : StringWritable :=
  {| data := ""; _decoder := decoder |}.

(** [_write(chunk, encoding, callback)] *)
Definition _write (this : StringWritable) (chunk : Chunk) (encoding : string)
    : StringWritable :=
  if String.eqb encoding "buffer" then
    let (decoded, decoder) := decoder_write (_decoder this) chunk in
    {| data := data this +:+ decoded; _decoder := decoder |}
  else
    {| data := data this +:+ toString chunk; _decoder := _decoder this |}.

(** [_final(callback)] *)
Definition _final (this : StringWritable) : StringWritable :=
  let (rest, decoder) := decoder_end (_decoder this) in
  {| data := data this +:+ rest; _decoder := decoder |}.

(** The calls that the stream machinery makes on the object. *)
Inductive Call : Type :=
| call_write (chunk : Chunk) (encoding : string)
| call_final.

Definition step (this : StringWritable) (c : Call) : StringWritable :=
  match c with
  | call_write chunk encoding => _write this chunk encoding
  | call_final => _final this
  end.

Definition run (calls : list Call) (this : StringWritable) : StringWritable :=
  fold_left step calls this.

End Class.

Arguments text {Buffer} s.
Arguments buffer {Buffer} b.
Arguments call_write {Buffer} chunk encoding.
Arguments call_final {Buffer}.
Arguments Build_StringWritable {Decoder} data _decoder.
Arguments data {Decoder} s.
Arguments _decoder {Decoder} s.
Arguments new {Decoder} decoder.
Arguments toString {Buffer} Buffer_toString chunk.
Arguments _write {Decoder Buffer} decoder_write Buffer_toString this chunk encoding.
Arguments _final {Decoder} decoder_end this.
Arguments step {Decoder Buffer} decoder_write decoder_end Buffer_toString this c.
Arguments run {Decoder Buffer} decoder_write decoder_end Buffer_toString calls this.

End StringWritable.

(** A host with the source of the test suite registered, as after
    [PluginHost.instance.registerDifferenceFormatterSource(differenceFormatterSource)]. *)
Definition testPlugin : PluginHost :=
  {| differenceFormatterSources := [TestDifferenceFormatter.differenceFormatterSource] |}.

(** A diff with a change of permissions that broadens them. *)
Definition diffBroadened : TemplateDiff :=
  {| resources := Some [Some bucketAdded; Some metadataChanged];
     otherDifferences := 0;
     permissionsAnyChanges := true;
     permissionsBroadened := true |}.

(** A stand-in for [JSON.stringify] that tells the kinds of value apart. *)
Definition stringifyKind (v : TestDifferenceFormatter.Any) : string :=
  match v with
  | TestDifferenceFormatter.ofTemplateDiff _ => "{diff}"
  | TestDifferenceFormatter.ofLogicalPathMap _ => "{map}"
  | TestDifferenceFormatter.ofContext _ => "3"
  end.


(** The path map a rendering effect was given. *)
Definition renderedMap (e : Effect) : option (option LogicalPathMap) :=
  match e with
  | Render _ _ _ _ map _ => Some map
  | _ => None
  end.

(** * Properties *)

(** ** The monad and [forEach] *)

Lemma forEach_emit {A} (f : A -> Effect) (l : list A) :
  forEach l (fun x => emit (f x)) = (Normal tt, List.map f l).
Proof.
  induction l as [|x rest IH]; simpl.
  - reflexivity.
  - rewrite IH. reflexivity.
Qed.

Lemma ltb_0_length {A} (l : list A) :
  Nat.ltb 0 (List.length l) = match l with [] => false | _ :: _ => true end.
Proof. destruct l; reflexivity. Qed.

(** ** The approval policy *)

Lemma difRequiresApproval_enum (diff : TemplateDiff) (level : RequireApproval) :
  difRequiresApproval diff (RequireApproval_value level)
  = Normal (approvalPolicy (permissionsAnyChanges diff) (permissionsBroadened diff) level).
Proof. destruct level; reflexivity. Qed.

Lemma difRequiresApproval_unknown (diff : TemplateDiff) (requireApproval : string) :
  requireApproval <> "never" ->
  requireApproval <> "any-change" ->
  requireApproval <> "broadening" ->
  difRequiresApproval diff requireApproval
  = Throw {| message := "Unrecognized approval level: " +:+ requireApproval |}.
Proof.
  intros Hn Ha Hb. unfold difRequiresApproval. simpl RequireApproval_value.
  apply String.eqb_neq in Hn, Ha, Hb. rewrite Hn, Ha, Hb. reflexivity.
Qed.

(** C1. The approval policy is a total function of the two permission flags
    of the diff and of the approval level: on every diff and every level of
    the enum [difRequiresApproval] returns (never throws) the entry of the
    approval table. [Never] yields false; [AnyChange] yields
    [permissionsAnyChanges]; [Broadening] yields [permissionsBroadened], so
    that a diff that does not broaden permissions needs no approval under
    [Broadening], whatever [permissionsAnyChanges] is. *)
Theorem approval_policy_table :
  (forall diff level,
      difRequiresApproval diff (RequireApproval_value level)
      = Normal (approvalPolicy (permissionsAnyChanges diff)
                               (permissionsBroadened diff) level))
  /\ (forall diff, difRequiresApproval diff (RequireApproval_value Never) = Normal false)
  /\ (forall diff, difRequiresApproval diff (RequireApproval_value AnyChange)
                   = Normal (permissionsAnyChanges diff))
  /\ (forall diff, difRequiresApproval diff (RequireApproval_value Broadening)
                   = Normal (permissionsBroadened diff))
  /\ (forall rs others anyChanges,
         difRequiresApproval
           {| resources := rs; otherDifferences := others;
              permissionsAnyChanges := anyChanges; permissionsBroadened := false |}
           (RequireApproval_value Broadening)
         = Normal false).
Proof.
  repeat split; intros; try apply difRequiresApproval_enum; reflexivity.
Qed.

Section Properties.

Variable diffTemplate : Json -> Json -> TemplateDiff.
Variable colors_green : string -> string.

Lemma printSecurityDiff_unfold host oldTemplate newTemplate requireApproval :
  printSecurityDiff diffTemplate host oldTemplate newTemplate requireApproval
  = match difRequiresApproval (diffTemplate oldTemplate (template newTemplate))
            requireApproval with
    | Normal true =>
        (Normal true,
         warning (approvalWarning requireApproval)
         :: warning confirmWarning
         :: rendering host formatSecurityChanges process_stdout
              (diffTemplate oldTemplate (template newTemplate))
              (Some (buildLogicalToPathMap newTemplate)) None)
    | Normal false => (Normal false, [])
    | Throw e => (Throw e, [])
    end.
Proof.
  unfold printSecurityDiff, rendering, lift.
  destruct (difRequiresApproval _ _) as [[|]|e]; simpl; try reflexivity.
  rewrite ltb_0_length, forEach_emit.
  destruct (differenceFormatterSources host) as [|s rest]; simpl.
  - reflexivity.
  - rewrite app_nil_r. reflexivity.
Qed.

(** C3. For each level of the enum, [printSecurityDiff] returns true
    exactly when the approval policy requires approval. In that case it
    emits the warning that names the approval level and the request for
    confirmation, then invokes the security-only rendering of every
    registered source, or of the built-in renderer alone when none is
    registered, on standard output. Otherwise it returns false and
    performs no effect at all. *)
Theorem printSecurityDiff_policy :
  forall host oldTemplate newTemplate level,
    let diff := diffTemplate oldTemplate (template newTemplate) in
    printSecurityDiff diffTemplate host oldTemplate newTemplate (RequireApproval_value level)
    = if approvalPolicy (permissionsAnyChanges diff) (permissionsBroadened diff) level
      then (Normal true,
            [ warning ("This deployment will make potentially sensitive changes according to your current security approval level (--require-approval "
                       +:+ RequireApproval_value level +:+ ").");
              warning confirmWarning ]
            ++ match differenceFormatterSources host with
               | [] => [Render BuiltIn formatSecurityChanges process_stdout diff
                          (Some (buildLogicalToPathMap newTemplate)) None]
               | sources =>
                   List.map (fun source =>
                               Render (FromSource source) formatSecurityChanges
                                      process_stdout diff
                                      (Some (buildLogicalToPathMap newTemplate)) None)
                            sources
               end)
      else (Normal false, []).
Proof.
  intros host oldTemplate newTemplate level diff.
  rewrite printSecurityDiff_unfold, difRequiresApproval_enum.
  fold diff. destruct (approvalPolicy _ _ level); reflexivity.
Qed.

(** C8. Whatever the diff, an approval level that is none of 'never',
    'any-change' and 'broadening' makes [difRequiresApproval] throw the
    error "Unrecognized approval level: <level>"; [printSecurityDiff]
    propagates it to its caller, produces no boolean and performs no
    effect. *)
Theorem unknown_approval_level_throws :
  forall host oldTemplate newTemplate requireApproval,
    requireApproval <> RequireApproval_value Never ->
    requireApproval <> RequireApproval_value AnyChange ->
    requireApproval <> RequireApproval_value Broadening ->
    (forall diff,
        difRequiresApproval diff requireApproval
        = Throw {| message := "Unrecognized approval level: " +:+ requireApproval |})
    /\ printSecurityDiff diffTemplate host oldTemplate newTemplate requireApproval
       = (Throw {| message := "Unrecognized approval level: " +:+ requireApproval |}, []).
Proof.
  intros host oldTemplate newTemplate requireApproval Hn Ha Hb.
  split.
  - intros diff. apply difRequiresApproval_unknown; assumption.
  - rewrite printSecurityDiff_unfold.
    rewrite difRequiresApproval_unknown by assumption. reflexivity.
Qed.

End Properties.

Lemma unknown_approval_level_throws_witness :
  ("always" <> RequireApproval_value Never
   /\ "always" <> RequireApproval_value AnyChange
   /\ "always" <> RequireApproval_value Broadening)
  /\ (forall diff,
         difRequiresApproval diff "always"
         = Throw {| message := "Unrecognized approval level: always" |})
  /\ printSecurityDiff (answering diffBucketAndMetadata) twoPlugins
       (JObject []) stackD "always"
     = (Throw {| message := "Unrecognized approval level: always" |}, []).
Proof.
  split.
  - repeat split; discriminate.
  - apply (unknown_approval_level_throws (answering diffBucketAndMetadata)
             twoPlugins (JObject []) stackD "always"); discriminate.
Defined.

(** ** The non-strict filter *)

Lemma keepChange_spec (change : ResourceDifference) :
  keepChange (Some change) = true <-> ~ isMetadataChange change.
Proof.
  unfold keepChange, isMetadataChange.
  destruct (bool_decide (newResourceType change = Some "AWS::CDK::Metadata")) eqn:Hnew;
    [apply bool_decide_eq_true in Hnew | apply bool_decide_eq_false in Hnew].
  - split; [discriminate | intros Hnot; exfalso; apply Hnot; right; assumption].
  - destruct (bool_decide (oldResourceType change = Some "AWS::CDK::Metadata")) eqn:Hold;
      [apply bool_decide_eq_true in Hold | apply bool_decide_eq_false in Hold].
    + split; [discriminate | intros Hnot; exfalso; apply Hnot; left; assumption].
    + split; [intros _ [Ho | Hn]; contradiction | reflexivity].
Qed.

Lemma filterMetadataResources_strict (diff : TemplateDiff) :
  filterMetadataResources true diff = diff.
Proof. unfold filterMetadataResources. destruct (resources diff); reflexivity. Qed.

Lemma filterMetadataResources_resources (diff : TemplateDiff) :
  resources (filterMetadataResources false diff)
  = option_map (List.filter keepChange) (resources diff).
Proof.
  unfold filterMetadataResources.
  destruct (resources diff) eqn:E; simpl; [reflexivity | assumption].
Qed.

Lemma isEmpty_differenceCount (diff : TemplateDiff) :
  isEmpty diff = true -> differenceCount diff = 0.
Proof. unfold isEmpty. intros H. apply Nat.eqb_eq. exact H. Qed.

Lemma presentChanges_filter (changes : list (option ResourceDifference)) :
  presentChanges (List.filter keepChange changes)
  + List.length (List.filter (fun change => negb (keepChange change)) changes)
  = presentChanges changes.
Proof.
  unfold presentChanges.
  induction changes as [|change rest IH]; [reflexivity|].
  cbn [List.filter].
  destruct change as [change|].
  - destruct (keepChange (Some change)); cbn [negb List.filter List.length]; lia.
  - cbn [keepChange negb List.filter List.length]. exact IH.
Qed.

(** C10. The non-strict filter is defined on every sequence of change
    records, null ones included, and keeps each null record where it is:
    the filtered sequence of [before ++ null :: after] is the filtered
    [before], then the null record, then the filtered [after]. *)
Theorem nonstrict_filter_keeps_null :
  forall diff before after,
    resources diff = Some (before ++ None :: after) ->
    keepChange None = true
    /\ resources (filterMetadataResources false diff)
       = Some (List.filter keepChange before ++ None :: List.filter keepChange after).
Proof.
  intros diff before after Hres. split; [reflexivity|].
  rewrite filterMetadataResources_resources, Hres. simpl.
  rewrite List.filter_app. reflexivity.
Qed.

Lemma nonstrict_filter_keeps_null_witness :
  resources diffBucketAndMetadata
  = Some ([Some bucketAdded] ++ None :: [Some metadataChanged])
  /\ keepChange None = true
  /\ resources (filterMetadataResources false diffBucketAndMetadata)
     = Some (List.filter keepChange [Some bucketAdded]
             ++ None :: List.filter keepChange [Some metadataChanged]).
Proof.
  split.
  - reflexivity.
  - apply (nonstrict_filter_keeps_null diffBucketAndMetadata
             [Some bucketAdded] [Some metadataChanged]).
    reflexivity.
Defined.

(** ** The stack diff reporter *)

Section Reporter.

Variable diffTemplate : Json -> Json -> TemplateDiff.
Variable colors_green : string -> string.

Lemma printStackDiff_unfold host oldTemplate newTemplate strict context stream :
  printStackDiff diffTemplate colors_green host oldTemplate newTemplate
                 strict context stream
  = let diff :=
      filterMetadataResources strict (diffTemplate oldTemplate (template newTemplate)) in
    (Normal (differenceCount diff),
     if isEmpty diff then [print (colors_green "There were no differences")]
     else rendering host formatDifferences (orStderr stream) diff
            (Some (buildLogicalToPathMap newTemplate)) (Some context)).
Proof.
  unfold printStackDiff, rendering. cbv zeta.
  destruct (isEmpty _); simpl.
  - reflexivity.
  - rewrite ltb_0_length, forEach_emit.
    destruct (differenceFormatterSources host) as [|s rest]; simpl.
    + reflexivity.
    + rewrite app_nil_r. reflexivity.
Qed.

(** C4. When the diff as filtered (or, in strict mode, as computed) is
    empty, [printStackDiff] invokes no renderer: its only effect is to
    print the notice 'There were no differences', and it returns 0. *)
Theorem printStackDiff_empty :
  forall host oldTemplate newTemplate strict context stream,
    isEmpty (filterMetadataResources strict
               (diffTemplate oldTemplate (template newTemplate))) = true ->
    printStackDiff diffTemplate colors_green host oldTemplate newTemplate
                   strict context stream
    = (Normal 0, [print (colors_green "There were no differences")]).
Proof.
  intros host oldTemplate newTemplate strict context stream Hempty.
  rewrite printStackDiff_unfold. cbv zeta. rewrite Hempty.
  rewrite (isEmpty_differenceCount _ Hempty). reflexivity.
Qed.

(** C5, as the code has it. [printStackDiff] returns the difference count
    of the diff that it rendered: in strict mode the count of the computed
    diff, in non-strict mode that count less the number of change records
    that the filter removed. *)
Theorem printStackDiff_returns_rendered_count :
  forall host oldTemplate newTemplate strict context stream,
    let diff := diffTemplate oldTemplate (template newTemplate) in
    completion (printStackDiff diffTemplate colors_green host oldTemplate
                               newTemplate strict context stream)
    = Normal (differenceCount (filterMetadataResources strict diff))
    /\ differenceCount (filterMetadataResources true diff) = differenceCount diff
    /\ differenceCount (filterMetadataResources false diff)
       + match resources diff with
         | Some changes =>
             List.length (List.filter (fun change => negb (keepChange change)) changes)
         | None => 0
         end
       = differenceCount diff.
Proof.
  intros host oldTemplate newTemplate strict context stream diff.
  split; [|split].
  - rewrite printStackDiff_unfold. reflexivity.
  - rewrite filterMetadataResources_strict. reflexivity.
  - unfold filterMetadataResources, differenceCount.
    destruct (resources diff) as [changes|] eqn:Hres; simpl.
    + rewrite <- (presentChanges_filter changes). lia.
    + rewrite Hres. lia.
Qed.

Lemma rendering_renderedDiff host op stream diff map context e :
  In e (rendering host op stream diff map context) ->
  renderedDiff e = Some diff.
Proof.
  unfold rendering. destruct (differenceFormatterSources host) as [|s rest].
  - intros [<- | []]. reflexivity.
  - intros Hin. apply List.in_map_iff in Hin as [src [<- _]]. reflexivity.
Qed.

Lemma printStackDiff_renderedDiff host oldTemplate newTemplate strict context stream e diff :
  In e (effects (printStackDiff diffTemplate colors_green host oldTemplate
                                newTemplate strict context stream)) ->
  renderedDiff e = Some diff ->
  diff = filterMetadataResources strict (diffTemplate oldTemplate (template newTemplate)).
Proof.
  rewrite printStackDiff_unfold. cbv zeta. unfold effects. simpl.
  destruct (isEmpty _).
  - intros [<- | []]. discriminate.
  - intros Hin Hr. apply rendering_renderedDiff in Hin. congruence.
Qed.

(** C6. Every diff that [printStackDiff] hands to a renderer is, in
    non-strict mode, the computed diff whose change records about the
    type 'AWS::CDK::Metadata' (as old or as new type) are all removed and
    whose other records are all kept, so that no record given to a
    renderer mentions that type; in strict mode it is the computed diff
    itself, nothing filtered. *)
Theorem printStackDiff_filters_metadata :
  forall host oldTemplate newTemplate strict context stream e rendered,
    In e (effects (printStackDiff diffTemplate colors_green host oldTemplate
                                  newTemplate strict context stream)) ->
    renderedDiff e = Some rendered ->
    let diff := diffTemplate oldTemplate (template newTemplate) in
    if strict then rendered = diff
    else
      (forall changes change,
          resources rendered = Some changes ->
          In (Some change) changes -> ~ isMetadataChange change)
      /\ (forall changes change,
             resources diff = Some changes ->
             In (Some change) changes -> ~ isMetadataChange change ->
             exists kept, resources rendered = Some kept /\ In (Some change) kept)
      /\ (forall changes,
             resources diff = Some changes ->
             resources rendered = Some (List.filter keepChange changes))
      /\ (resources diff = None -> resources rendered = None).
Proof.
  intros host oldTemplate newTemplate strict context stream e rendered Hin Hr diff.
  apply printStackDiff_renderedDiff with (diff := rendered) in Hin; [|assumption].
  fold diff in Hin. subst rendered. destruct strict.
  - apply filterMetadataResources_strict.
  - rewrite filterMetadataResources_resources.
    repeat split.
    + intros changes change Hres Hc.
      destruct (resources diff) as [all|]; [|discriminate].
      injection Hres as <-. apply List.filter_In in Hc as [_ Hkeep].
      apply keepChange_spec. assumption.
    + intros changes change Hres Hc Hnot. rewrite Hres. simpl.
      eexists. split; [reflexivity|].
      apply List.filter_In. split; [assumption|]. apply keepChange_spec. assumption.
    + intros changes ->. reflexivity.
    + intros ->. reflexivity.
Qed.

(** C7. When the diff, filtered or not, is not empty, the effects of
    [printStackDiff] are renderer invocations only: with an empty
    registry the single invocation of the built-in renderer; with N
    registered sources N invocations of the full-diff rendering, the i-th
    by the i-th registered source, all with the same stream, diff, path
    map and context, none of them by the built-in renderer. *)
Theorem printStackDiff_renderers :
  forall host oldTemplate newTemplate strict context stream,
    let diff :=
      filterMetadataResources strict (diffTemplate oldTemplate (template newTemplate)) in
    let out := effects (printStackDiff diffTemplate colors_green host oldTemplate
                                       newTemplate strict context stream) in
    isEmpty diff = false ->
    (differenceFormatterSources host = [] ->
       out = [Render BuiltIn formatDifferences (orStderr stream) diff
                (Some (buildLogicalToPathMap newTemplate)) (Some context)])
    /\ (differenceFormatterSources host <> [] ->
          out = List.map (fun source =>
                            Render (FromSource source) formatDifferences
                                   (orStderr stream) diff
                                   (Some (buildLogicalToPathMap newTemplate))
                                   (Some context))
                         (differenceFormatterSources host)
          /\ List.length out = List.length (differenceFormatterSources host)
          /\ List.map rendererOf out
             = List.map (fun source => Some (FromSource source))
                        (differenceFormatterSources host)
          /\ ~ In (Some BuiltIn) (List.map rendererOf out)).
Proof.
  intros host oldTemplate newTemplate strict context stream diff out Hne.
  subst out. rewrite printStackDiff_unfold. cbv zeta. unfold effects. simpl.
  fold diff. rewrite Hne. unfold rendering.
  destruct (differenceFormatterSources host) as [|s rest] eqn:Hs.
  - split; [reflexivity | intros H; contradiction].
  - split; [discriminate|]. intros _.
    split; [reflexivity|].
    split; [apply List.length_map|].
    rewrite List.map_map. simpl.
    split; [reflexivity|].
    intros [H | H]; [discriminate H|].
    apply List.in_map_iff in H as [src [H _]]. discriminate H.
Qed.

End Reporter.

Lemma printStackDiff_empty_witness :
  isEmpty (filterMetadataResources false
             (answering diffMetadataOnly (JObject []) (template stackD))) = true
  /\ printStackDiff (answering diffMetadataOnly) ansiGreen twoPlugins
       (JObject []) stackD false 3 None
     = (Normal 0, [print (ansiGreen "There were no differences")]).
Proof.
  split; [reflexivity|].
  apply (printStackDiff_empty (answering diffMetadataOnly) ansiGreen twoPlugins
           (JObject []) stackD false 3 None).
  reflexivity.
Defined.

(** C5, as stated, fails on a diff with an added bucket and a change of the
    bookkeeping resource: the diff algorithm counts two differences, and in
    non-strict mode [printStackDiff] returns 1. *)
Lemma printStackDiff_count_is_filtered :
  differenceCount (answering diffBucketAndMetadata (JObject []) (template stackD)) = 2
  /\ completion (printStackDiff (answering diffBucketAndMetadata) ansiGreen noPlugins
                                (JObject []) stackD false 3 None)
     = Normal 1.
Proof. split; reflexivity. Qed.

Lemma printStackDiff_filters_metadata_witness :
  let e := Render BuiltIn formatDifferences process_stderr
             (set_resources diffBucketAndMetadata [Some bucketAdded; None])
             (Some (buildLogicalToPathMap stackD)) (Some 3) in
  let rendered := set_resources diffBucketAndMetadata [Some bucketAdded; None] in
  In e (effects (printStackDiff (answering diffBucketAndMetadata) ansiGreen noPlugins
                                (JObject []) stackD false 3 None))
  /\ renderedDiff e = Some rendered
  /\ (forall changes change,
         resources rendered = Some changes ->
         In (Some change) changes -> ~ isMetadataChange change)
  /\ (forall changes change,
         resources diffBucketAndMetadata = Some changes ->
         In (Some change) changes -> ~ isMetadataChange change ->
         exists kept, resources rendered = Some kept /\ In (Some change) kept)
  /\ (forall changes,
         resources diffBucketAndMetadata = Some changes ->
         resources rendered = Some (List.filter keepChange changes))
  /\ (resources diffBucketAndMetadata = None -> resources rendered = None).
Proof.
  intros e rendered.
  assert (Hin : In e (effects (printStackDiff (answering diffBucketAndMetadata)
                                 ansiGreen noPlugins (JObject []) stackD false 3 None)))
    by (left; reflexivity).
  split; [exact Hin|]. split; [reflexivity|].
  exact (printStackDiff_filters_metadata (answering diffBucketAndMetadata) ansiGreen
           noPlugins (JObject []) stackD false 3 None e rendered Hin eq_refl).
Defined.

Lemma printStackDiff_renderers_witness :
  let diff := filterMetadataResources false diffBucketAndMetadata in
  let out := effects (printStackDiff (answering diffBucketAndMetadata) ansiGreen
                                     twoPlugins (JObject []) stackD false 3
                                     (Some (writable 1))) in
  isEmpty diff = false
  /\ (differenceFormatterSources twoPlugins = [] ->
        out = [Render BuiltIn formatDifferences (writable 1) diff
                 (Some (buildLogicalToPathMap stackD)) (Some 3)])
  /\ (differenceFormatterSources twoPlugins <> [] ->
        out = List.map (fun source =>
                          Render (FromSource source) formatDifferences
                                 (writable 1) diff
                                 (Some (buildLogicalToPathMap stackD)) (Some 3))
                       (differenceFormatterSources twoPlugins)
        /\ List.length out = List.length (differenceFormatterSources twoPlugins)
        /\ List.map rendererOf out
           = List.map (fun source => Some (FromSource source))
                      (differenceFormatterSources twoPlugins)
        /\ ~ In (Some BuiltIn) (List.map rendererOf out)).
Proof.
  intros diff out. split; [reflexivity|].
  apply (printStackDiff_renderers (answering diffBucketAndMetadata) ansiGreen
           twoPlugins (JObject []) stackD false 3 (Some (writable 1))).
  reflexivity.
Defined.

(** ** Logical-path resolution *)

Lemma filter_filter {A} (p q : A -> bool) (l : list A) :
  List.filter p (List.filter q l) = List.filter (fun x => q x && p x) l.
Proof.
  induction l as [|x rest IH]; simpl; [reflexivity|].
  destruct (q x); simpl; [destruct (p x)|]; rewrite IH; reflexivity.
Qed.

Lemma filter_ext_bool {A} (p q : A -> bool) (l : list A) :
  (forall x, p x = q x) -> List.filter p l = List.filter q l.
Proof.
  intros Hpq. induction l as [|x rest IH]; simpl; [reflexivity|].
  rewrite Hpq, IH. reflexivity.
Qed.

Lemma getOwn_defineOwn (o : JsObject.t) (k v k' : string) :
  JsObject.getOwn (JsObject.defineOwn o k v) k'
  = if String.eqb k k' then Some v else JsObject.getOwn o k'.
Proof.
  induction o as [|[k0 v0] rest IH]; cbn [JsObject.defineOwn JsObject.getOwn].
  - reflexivity.
  - destruct (String.eqb_spec k0 k) as [->|Hk0]; cbn [JsObject.getOwn].
    + destruct (String.eqb k k'); reflexivity.
    + rewrite IH. destruct (String.eqb_spec k0 k') as [->|Hk0'].
      * destruct (String.eqb_spec k k') as [->|_]; [contradiction | reflexivity].
      * reflexivity.
Qed.

Lemma getOwn_set (o : JsObject.t) (k v k' : string) :
  JsObject.getOwn (JsObject.set o k v) k'
  = if String.eqb k "__proto__" then JsObject.getOwn o k'
    else if String.eqb k k' then Some v else JsObject.getOwn o k'.
Proof.
  unfold JsObject.set. destruct (String.eqb k "__proto__"); [reflexivity|].
  apply getOwn_defineOwn.
Qed.

Lemma fold_set_getOwn (entries : list MetadataEntryResult)
    (o : JsObject.t) (id : string) :
  JsObject.getOwn
    (fold_left (fun map md => JsObject.set map (data md) (path md)) entries o) id
  = if String.eqb id "__proto__" then JsObject.getOwn o id
    else match last (List.filter (fun md => bool_decide (data md = id)) entries) with
         | Some md => Some (path md)
         | None => JsObject.getOwn o id
         end.
Proof.
  revert o. induction entries as [|md rest IH]; intros o; cbn [fold_left List.filter].
  - destruct (String.eqb id "__proto__"); reflexivity.
  - rewrite IH, getOwn_set.
    destruct (String.eqb_spec id "__proto__") as [Hp|Hp].
    + destruct (String.eqb_spec (data md) "__proto__") as [_|Hd]; [reflexivity|].
      destruct (String.eqb_spec (data md) id) as [Heq|_]; [congruence | reflexivity].
    + destruct (bool_decide (data md = id)) eqn:Hid.
      * apply bool_decide_eq_true in Hid.
        destruct (List.filter _ rest) as [|next others].
        -- cbn [last].
           destruct (String.eqb_spec (data md) "__proto__") as [Hd|_]; [congruence|].
           destruct (String.eqb_spec (data md) id) as [_|Hne];
             [reflexivity | contradiction].
        -- change (last (md :: next :: others)) with (last (next :: others)).
           destruct (last (next :: others)) eqn:Hlast; [reflexivity|].
           apply last_None in Hlast. discriminate Hlast.
      * apply bool_decide_eq_false in Hid.
        destruct (last _); [reflexivity|].
        destruct (String.eqb_spec (data md) "__proto__") as [_|_]; [reflexivity|].
        destruct (String.eqb_spec (data md) id) as [Heq|_];
          [contradiction | reflexivity].
Qed.



Example buildLogicalToPathMap_last_wins :
  JsObject.getOwn (buildLogicalToPathMap stackTwoPaths) "Bucket1"
  = Some "/E/New/Resource"
  /\ JsObject.getOwn (buildLogicalToPathMap stackTwoPaths) "Warned" = None.
Proof. split; reflexivity. Qed.

Lemma buildLogicalToPathMap_withoutMetadataOfType t stack :
  t <> LOGICAL_ID ->
  buildLogicalToPathMap (withoutMetadataOfType t stack) = buildLogicalToPathMap stack.
Proof.
  intros Ht. unfold buildLogicalToPathMap, findMetadataByType, withoutMetadataOfType.
  simpl. rewrite filter_filter. f_equal. apply filter_ext_bool. intros md.
  destruct (bool_decide (type md = LOGICAL_ID)) eqn:Hl.
  - apply bool_decide_eq_true in Hl.
    rewrite bool_decide_eq_false_2; [reflexivity | congruence].
  - apply andb_false_r.
Qed.

(** ** Artifacts with error metadata *)

Section ErrorMetadata.

Variable diffTemplate : Json -> Json -> TemplateDiff.
Variable colors_green : string -> string.

(** C2, as the code has it. [printStackDiff] does not inspect the
    metadata of kind ERROR: for every old template and every new
    artifact, with or without ERROR entries, it completes normally with
    a difference count, and its result and effects are the ones it has
    for the same artifact with the ERROR entries removed. *)
Theorem printStackDiff_ignores_error_metadata :
  forall host oldTemplate newTemplate strict context stream,
    (exists count,
        completion (printStackDiff diffTemplate colors_green host oldTemplate
                                   newTemplate strict context stream)
        = Normal count)
    /\ printStackDiff diffTemplate colors_green host oldTemplate
                      newTemplate strict context stream
       = printStackDiff diffTemplate colors_green host oldTemplate
                        (withoutMetadataOfType ERROR newTemplate)
                        strict context stream.
Proof.
  intros host oldTemplate newTemplate strict context stream. split.
  - rewrite printStackDiff_unfold. eexists. reflexivity.
  - rewrite !printStackDiff_unfold.
    rewrite buildLogicalToPathMap_withoutMetadataOfType by discriminate.
    reflexivity.
Qed.

End ErrorMetadata.

(** C2, as stated, fails on stack 'C' of the test suite: the artifact
    carries an ERROR entry, and [printStackDiff] returns the count and
    invokes the built-in renderer on the diff. *)
Lemma printStackDiff_error_metadata_not_rejected :
  findMetadataByType stackC ERROR
  = [ {| type := ERROR; path := "/resource"; data := "this is an error" |} ]
  /\ printStackDiff (answering diffBucketAndMetadata) ansiGreen noPlugins
       (JObject []) stackC true 3 None
     = (Normal 2,
        [Render BuiltIn formatDifferences process_stderr diffBucketAndMetadata
           (Some (buildLogicalToPathMap stackC)) (Some 3)])
  /\ (forall err,
         completion (printStackDiff (answering diffBucketAndMetadata) ansiGreen
                                    noPlugins (JObject []) stackC true 3 None)
         <> Throw err).
Proof. repeat split; try reflexivity. intros err. discriminate. Qed.

(** * Further properties of lib/diff.ts *)

(** ** Approval levels *)

(** X1. [difRequiresApproval] returns a boolean exactly for the three
    strings of the enum and throws for every other string; the three
    strings are distinct, so the level that a string denotes is unique. *)
Theorem difRequiresApproval_returns_iff_enum :
  forall diff requireApproval,
    ((exists required, difRequiresApproval diff requireApproval = Normal required)
     <-> (exists level, requireApproval = RequireApproval_value level))
    /\ ((exists err, difRequiresApproval diff requireApproval = Throw err)
        <-> (forall level, requireApproval <> RequireApproval_value level))
    /\ (forall a b,
           RequireApproval_value a = RequireApproval_value b -> a = b).
Proof.
  intros diff requireApproval.
  assert (Hcases : (exists level, requireApproval = RequireApproval_value level)
                   \/ (forall level, requireApproval <> RequireApproval_value level)).
  { destruct (String.eqb_spec requireApproval "never") as [->|Hn];
      [left; exists Never; reflexivity|].
    destruct (String.eqb_spec requireApproval "any-change") as [->|Ha];
      [left; exists AnyChange; reflexivity|].
    destruct (String.eqb_spec requireApproval "broadening") as [->|Hb];
      [left; exists Broadening; reflexivity|].
    right. intros [| |]; assumption. }
  split; [|split].
  - split.
    + intros [required Hr]. destruct Hcases as [Hl | Hnone]; [assumption|].
      rewrite (difRequiresApproval_unknown diff requireApproval
                 (Hnone Never) (Hnone AnyChange) (Hnone Broadening)) in Hr.
      discriminate Hr.
    + intros [level ->]. rewrite difRequiresApproval_enum. eexists. reflexivity.
  - split.
    + intros [err He] level ->. rewrite difRequiresApproval_enum in He. discriminate He.
    + intros Hnone. eexists.
      exact (difRequiresApproval_unknown diff requireApproval
               (Hnone Never) (Hnone AnyChange) (Hnone Broadening)).
  - intros a b. destruct a, b; simpl; intros H; try reflexivity; discriminate H.
Qed.

(** ** The non-strict filter, continued *)

Lemma filter_all_true {A} (p : A -> bool) (l : list A) :
  (forall x, In x l -> p x = true) -> List.filter p l = l.
Proof.
  induction l as [|x rest IH]; simpl; intros Hall; [reflexivity|].
  rewrite (Hall x) by (left; reflexivity).
  rewrite IH; [reflexivity|]. intros y Hy. apply Hall. right. assumption.
Qed.

Lemma filter_keepChange_idem (changes : list (option ResourceDifference)) :
  List.filter keepChange (List.filter keepChange changes)
  = List.filter keepChange changes.
Proof.
  apply filter_all_true. intros x Hx. apply List.filter_In in Hx as [_ Hk]. exact Hk.
Qed.

Lemma filter_sublist_bool {A} (p : A -> bool) (l : list A) :
  sublist (List.filter p l) l.
Proof.
  induction l as [|x rest IH]; simpl.
  - constructor.
  - destruct (p x); constructor; assumption.
Qed.

Lemma set_resources_same (diff : TemplateDiff) changes :
  resources diff = Some changes -> set_resources diff changes = diff.
Proof. destruct diff; simpl; intros ->; reflexivity. Qed.

(** X2. Filtering is idempotent, and the records it keeps are a
    subsequence of the records of the diff, in their order; a diff without
    a [resources] sequence stays without one. *)
Theorem filterMetadataResources_idempotent_sublist :
  forall strict diff,
    filterMetadataResources strict (filterMetadataResources strict diff)
    = filterMetadataResources strict diff
    /\ match resources diff, resources (filterMetadataResources strict diff) with
       | Some changes, Some kept => sublist kept changes
       | None, None => True
       | _, _ => False
       end.
Proof.
  intros strict diff. unfold filterMetadataResources.
  destruct (resources diff) as [changes|] eqn:Hres.
  - destruct strict; simpl.
    + rewrite Hres. simpl. split; reflexivity.
    + rewrite filter_keepChange_idem. split; [reflexivity|].
      apply filter_sublist_bool.
  - rewrite Hres. split; [reflexivity | exact I].
Qed.

Section Agreement.

Variable diffTemplate : Json -> Json -> TemplateDiff.
Variable colors_green : string -> string.

(** X3. When the computed diff has no change record about
    'AWS::CDK::Metadata', the [strict] flag makes no difference:
    [printStackDiff] returns the same count and performs the same effects
    in non-strict and in strict mode. *)
Theorem printStackDiff_strict_irrelevant :
  forall host oldTemplate newTemplate context stream,
    (forall changes change,
        resources (diffTemplate oldTemplate (template newTemplate)) = Some changes ->
        In (Some change) changes -> ~ isMetadataChange change) ->
    printStackDiff diffTemplate colors_green host oldTemplate newTemplate
                   false context stream
    = printStackDiff diffTemplate colors_green host oldTemplate newTemplate
                     true context stream.
Proof.
  intros host oldTemplate newTemplate context stream Hnone.
  rewrite !printStackDiff_unfold. cbv zeta.
  rewrite filterMetadataResources_strict.
  assert (Hsame : filterMetadataResources false
                    (diffTemplate oldTemplate (template newTemplate))
                  = diffTemplate oldTemplate (template newTemplate)).
  { unfold filterMetadataResources.
    destruct (resources _) as [changes|] eqn:Hres; [|reflexivity]. simpl.
    rewrite filter_all_true.
    - apply set_resources_same. assumption.
    - intros [change|] Hin; [|reflexivity].
      apply keepChange_spec. apply (Hnone changes change); [reflexivity | assumption]. }
  rewrite Hsame. reflexivity.
Qed.

Lemma omap_rendering {B} (f : Effect -> option B) host op stream diff map context
    (g : Renderer -> B) :
  (forall r, f (Render r op stream diff map context) = Some (g r)) ->
  omap f (rendering host op stream diff map context)
  = match differenceFormatterSources host with
    | [] => [g BuiltIn]
    | sources => List.map (fun source => g (FromSource source)) sources
    end.
Proof.
  intros Hf. unfold rendering.
  destruct (differenceFormatterSources host) as [|s rest].
  - simpl. rewrite Hf. reflexivity.
  - generalize (s :: rest). intros l.
    induction l as [|x l IH]; simpl; [reflexivity|].
    rewrite Hf. simpl. f_equal. exact IH.
Qed.

(** X4. When [printStackDiff] renders (the diff is not empty) and
    [printSecurityDiff] asks for approval, the two invoke the same
    renderers in the same order and give them the same path map, and the
    diff of the full rendering is the filtered diff of the security
    rendering: the security diff itself is never filtered. *)
Theorem printStackDiff_printSecurityDiff_agree :
  forall host oldTemplate newTemplate strict context stream requireApproval,
    let full := effects (printStackDiff diffTemplate colors_green host oldTemplate
                                        newTemplate strict context stream) in
    let security := effects (printSecurityDiff diffTemplate host oldTemplate
                                               newTemplate requireApproval) in
    isEmpty (filterMetadataResources strict
               (diffTemplate oldTemplate (template newTemplate))) = false ->
    completion (printSecurityDiff diffTemplate host oldTemplate newTemplate
                                  requireApproval) = Normal true ->
    omap rendererOf full = omap rendererOf security
    /\ omap renderedMap full = omap renderedMap security
    /\ omap renderedDiff full
       = List.map (filterMetadataResources strict) (omap renderedDiff security)
    /\ Forall (fun diff => diff = diffTemplate oldTemplate (template newTemplate))
              (omap renderedDiff security).
Proof.
  intros host oldTemplate newTemplate strict context stream requireApproval
         full security Hne Htrue.
  subst full security. revert Htrue.
  rewrite printStackDiff_unfold, printSecurityDiff_unfold. cbv zeta.
  unfold effects, completion. simpl. rewrite Hne.
  destruct (difRequiresApproval _ _) as [[|]|err]; simpl; try discriminate.
  intros _.
  set (diff := diffTemplate oldTemplate (template newTemplate)).
  rewrite !(omap_rendering rendererOf _ _ _ _ _ _ (fun r => r))
    by (intros; reflexivity).
  rewrite (omap_rendering renderedMap _ _ _ _ _ _
             (fun _ => Some (buildLogicalToPathMap newTemplate)))
    by (intros; reflexivity).
  rewrite (omap_rendering renderedMap _ _ _ _ _ _
             (fun _ => Some (buildLogicalToPathMap newTemplate)))
    by (intros; reflexivity).
  rewrite (omap_rendering renderedDiff _ _ _ (filterMetadataResources strict diff)
             _ _ (fun _ => filterMetadataResources strict diff))
    by (intros; reflexivity).
  rewrite (omap_rendering renderedDiff _ _ _ diff _ _ (fun _ => diff))
    by (intros; reflexivity).
  repeat split.
  - destruct (differenceFormatterSources host) as [|s rest]; [reflexivity|].
    rewrite List.map_map. reflexivity.
  - destruct (differenceFormatterSources host) as [|s rest].
    + repeat constructor.
    + apply Forall_forall. intros d Hd.
      apply list_elem_of_In, List.in_map_iff in Hd as [src [<- _]]. reflexivity.
Qed.

End Agreement.

Lemma printStackDiff_strict_irrelevant_witness :
  (forall changes change,
      resources (answering diffBucketOnly (JObject []) (template stackD)) = Some changes ->
      In (Some change) changes -> ~ isMetadataChange change)
  /\ printStackDiff (answering diffBucketOnly) ansiGreen twoPlugins (JObject []) stackD
                    false 3 None
     = printStackDiff (answering diffBucketOnly) ansiGreen twoPlugins (JObject []) stackD
                      true 3 None.
Proof.
  assert (H : forall changes change,
             resources (answering diffBucketOnly (JObject []) (template stackD))
             = Some changes ->
             In (Some change) changes -> ~ isMetadataChange change).
  { intros changes change Hres Hin. injection Hres as <-.
    destruct Hin as [Heq | [Heq | []]]; [|discriminate Heq].
    injection Heq as <-. intros [Hold | Hnew]; [discriminate Hold | discriminate Hnew]. }
  split; [exact H|].
  exact (printStackDiff_strict_irrelevant (answering diffBucketOnly) ansiGreen twoPlugins
           (JObject []) stackD 3 None H).
Defined.

Lemma printStackDiff_printSecurityDiff_agree_witness :
  let full := effects (printStackDiff (answering diffBroadened) ansiGreen twoPlugins
                                      (JObject []) stackD false 3 None) in
  let security := effects (printSecurityDiff (answering diffBroadened) twoPlugins
                                             (JObject []) stackD "broadening") in
  isEmpty (filterMetadataResources false
             (answering diffBroadened (JObject []) (template stackD))) = false
  /\ completion (printSecurityDiff (answering diffBroadened) twoPlugins
                                   (JObject []) stackD "broadening") = Normal true
  /\ omap rendererOf full = omap rendererOf security
  /\ omap renderedMap full = omap renderedMap security
  /\ omap renderedDiff full
     = List.map (filterMetadataResources false) (omap renderedDiff security)
  /\ Forall (fun diff => diff = answering diffBroadened (JObject []) (template stackD))
            (omap renderedDiff security).
Proof.
  intros full security. split; [reflexivity|]. split; [reflexivity|].
  apply (printStackDiff_printSecurityDiff_agree (answering diffBroadened) ansiGreen
           twoPlugins (JObject []) stackD false 3 None "broadening");
    reflexivity.
Defined.

(** ** Logical-path resolution, continued *)

Lemma last_In {A} (l : list A) (x : A) : last l = Some x -> In x l.
Proof.
  intros H. apply last_Some in H as [l' ->].
  apply List.in_or_app. right. left. reflexivity.
Qed.

Lemma filter_nonempty_last {A} (p : A -> bool) (l : list A) (x : A) :
  In x l -> p x = true -> is_Some (last (List.filter p l)).
Proof.
  intros Hin Hp.
  destruct (last (List.filter p l)) eqn:Hlast; [eexists; reflexivity|].
  apply last_None in Hlast.
  assert (Hx : In x (List.filter p l)) by (apply List.filter_In; split; assumption).
  rewrite Hlast in Hx. destruct Hx.
Qed.

Lemma logicalToPathMap_getOwn_last (stack : CloudFormationStackArtifact) id :
  JsObject.getOwn (buildLogicalToPathMap stack) id
  = if String.eqb id "__proto__" then None
    else option_map path
           (last (List.filter (fun md => bool_decide (data md = id))
                              (findMetadataByType stack LOGICAL_ID))).
Proof.
  unfold buildLogicalToPathMap. rewrite fold_set_getOwn.
  destruct (String.eqb id "__proto__"); [reflexivity|].
  destruct (last _); reflexivity.
Qed.

(** X5. The map holds nothing that the metadata does not say: an
    identifier is a key of the map exactly when it is not '__proto__' and
    some LOGICAL_ID entry carries it, and the path found under an
    identifier is the path of a LOGICAL_ID entry with that identifier. *)
Theorem buildLogicalToPathMap_sound :
  forall (stack : CloudFormationStackArtifact) (id : string),
    (is_Some (JsObject.getOwn (buildLogicalToPathMap stack) id)
     <-> id <> "__proto__"
         /\ exists md, In md (metadata stack) /\ type md = LOGICAL_ID /\ data md = id)
    /\ (forall p,
           JsObject.getOwn (buildLogicalToPathMap stack) id = Some p ->
           exists md, In md (metadata stack) /\ type md = LOGICAL_ID
                      /\ data md = id /\ path md = p).
Proof.
  intros stack id. rewrite logicalToPathMap_getOwn_last.
  unfold findMetadataByType.
  assert (Hlast : forall md,
             last (List.filter (fun md => bool_decide (data md = id))
                     (List.filter (fun md => bool_decide (type md = LOGICAL_ID))
                        (metadata stack))) = Some md ->
             In md (metadata stack) /\ type md = LOGICAL_ID /\ data md = id).
  { intros md H. apply last_In, List.filter_In in H as [H Hid].
    apply List.filter_In in H as [Hin Hty].
    apply bool_decide_eq_true in Hid, Hty. auto. }
  destruct (String.eqb_spec id "__proto__") as [Hp|Hp].
  - split; [split|].
    + intros [p Hsome]. discriminate Hsome.
    + intros [Hne _]. contradiction.
    + intros p Hsome. discriminate Hsome.
  - split; [split|].
    + intros [p Hsome]. split; [assumption|].
      destruct (last _) as [md|] eqn:E; [|discriminate Hsome].
      exists md. apply Hlast. reflexivity.
    + intros [_ [md [Hin [Hty Hid]]]].
      destruct (filter_nonempty_last (fun md => bool_decide (data md = id))
                  (List.filter (fun md => bool_decide (type md = LOGICAL_ID))
                     (metadata stack)) md) as [x Hx].
      * apply List.filter_In. split; [assumption|].
        apply bool_decide_eq_true. assumption.
      * apply bool_decide_eq_true. assumption.
      * rewrite Hx. eexists. reflexivity.
    + intros p Hsome. destruct (last _) as [md|] eqn:E; [|discriminate Hsome].
      injection Hsome as <-. exists md.
      destruct (Hlast md eq_refl) as [Hin [Hty Hid]]. auto.
Qed.




Lemma fold_set_skip_proto (entries : list MetadataEntryResult) (o : JsObject.t) :
  fold_left (fun map md => JsObject.set map (data md) (path md)) entries o
  = fold_left (fun map md => JsObject.set map (data md) (path md))
      (List.filter (fun md => negb (String.eqb (data md) "__proto__")) entries) o.
Proof.
  revert o. induction entries as [|md rest IH]; intros o; cbn [fold_left List.filter].
  - reflexivity.
  - assert (Hset : JsObject.set o (data md) (path md)
                   = if String.eqb (data md) "__proto__" then o
                     else JsObject.defineOwn o (data md) (path md)) by reflexivity.
    destruct (String.eqb (data md) "__proto__") eqn:Hp; cbn [negb].
    + rewrite Hset. apply IH.
    + cbn [fold_left]. apply IH.
Qed.





Lemma defineOwn_twice (o : JsObject.t) (k v0 v : string) :
  JsObject.defineOwn (JsObject.defineOwn o k v0) k v = JsObject.defineOwn o k v.
Proof.
  induction o as [|[k0 w] rest IH]; cbn [JsObject.defineOwn].
  - rewrite String.eqb_refl. reflexivity.
  - destruct (String.eqb k0 k) eqn:Hk0; cbn [JsObject.defineOwn]; rewrite Hk0.
    + reflexivity.
    + rewrite IH. reflexivity.
Qed.

Lemma defineOwn_comm (o : JsObject.t) (k v k' v' : string) :
  k <> k' -> is_Some (JsObject.getOwn o k) ->
  JsObject.defineOwn (JsObject.defineOwn o k v) k' v'
  = JsObject.defineOwn (JsObject.defineOwn o k' v') k v.
Proof.
  intros Hne. induction o as [|[k0 w] rest IH];
    cbn [JsObject.getOwn JsObject.defineOwn]; intros Hsome.
  - destruct Hsome as [x Hx]. discriminate Hx.
  - destruct (String.eqb_spec k0 k) as [->|Hk0].
    + destruct (String.eqb_spec k k') as [Heq|_]; [contradiction|].
      cbn [JsObject.defineOwn].
      destruct (String.eqb_spec k k') as [Heq|_]; [contradiction|].
      rewrite String.eqb_refl. reflexivity.
    + destruct (String.eqb_spec k0 k') as [->|Hk0'].
      * cbn [JsObject.defineOwn]. rewrite String.eqb_refl.
        destruct (String.eqb_spec k' k) as [Heq|_]; [congruence | reflexivity].
      * cbn [JsObject.defineOwn].
        destruct (String.eqb_spec k0 k') as [Heq|_]; [contradiction|].
        destruct (String.eqb_spec k0 k) as [Heq|_]; [contradiction|].
        rewrite IH by assumption. reflexivity.
Qed.

Lemma fold_set_defineOwn_present (src : JsObject.t) (b : JsObject.t) (k v : string) :
  ~ In k (List.map fst src) -> is_Some (JsObject.getOwn b k) ->
  fold_left (fun map kv => JsObject.set map (fst kv) (snd kv)) src
            (JsObject.defineOwn b k v)
  = JsObject.defineOwn
      (fold_left (fun map kv => JsObject.set map (fst kv) (snd kv)) src b) k v.
Proof.
  revert b. induction src as [|[k' v'] rest IH]; intros b Hnot Hsome;
    cbn [fold_left fst snd].
  - reflexivity.
  - assert (Hk : k <> k') by (intros ->; apply Hnot; left; reflexivity).
    assert (Hrest : ~ In k (List.map fst rest))
      by (intros Hin; apply Hnot; right; assumption).
    unfold JsObject.set at 2 4.
    destruct (String.eqb k' "__proto__").
    + apply IH; assumption.
    + rewrite defineOwn_comm by assumption.
      apply IH; [assumption|].
      rewrite getOwn_defineOwn.
      destruct (String.eqb k' k); [eexists; reflexivity | assumption].
Qed.

Lemma keys_defineOwn_In (o : JsObject.t) (k v x : string) :
  In x (List.map fst (JsObject.defineOwn o k v)) ->
  x = k \/ In x (List.map fst o).
Proof.
  induction o as [|[k0 w] rest IH]; cbn [JsObject.defineOwn List.map fst].
  - intros [<- | []]. left. reflexivity.
  - destruct (String.eqb k0 k); cbn [List.map fst].
    + intros H. right. exact H.
    + intros [<- | Hin]; [right; left; reflexivity|].
      destruct (IH Hin) as [-> | Hin']; [left; reflexivity | right; right; assumption].
Qed.

Lemma keys_defineOwn_NoDup (o : JsObject.t) (k v : string) :
  NoDup (List.map fst o) -> NoDup (List.map fst (JsObject.defineOwn o k v)).
Proof.
  induction o as [|[k0 w] rest IH]; cbn [JsObject.defineOwn List.map fst]; intros Hnd.
  - apply NoDup_singleton.
  - apply NoDup_cons in Hnd as [Hfresh Hnd].
    destruct (String.eqb_spec k0 k) as [->|Hk0]; cbn [List.map fst].
    + apply NoDup_cons. split; assumption.
    + apply NoDup_cons. split; [|apply IH; assumption].
      intros Hin. apply list_elem_of_In, keys_defineOwn_In in Hin as [Heq | Hin].
      * contradiction.
      * apply Hfresh, list_elem_of_In. assumption.
Qed.

Lemma fold_set_keys_NoDup (src o : JsObject.t) :
  NoDup (List.map fst o) ->
  NoDup (List.map fst
           (fold_left (fun map kv => JsObject.set map (fst kv) (snd kv)) src o)).
Proof.
  revert o. induction src as [|[k v] rest IH]; intros o Hnd; cbn [fold_left fst snd].
  - assumption.
  - apply IH. unfold JsObject.set.
    destruct (String.eqb k "__proto__"); [assumption|].
    apply keys_defineOwn_NoDup. assumption.
Qed.

Lemma fold_set_defineOwn (o base : JsObject.t) (k v : string) :
  NoDup (List.map fst o) -> String.eqb k "__proto__" = false ->
  fold_left (fun map kv => JsObject.set map (fst kv) (snd kv))
            (JsObject.defineOwn o k v) base
  = JsObject.defineOwn
      (fold_left (fun map kv => JsObject.set map (fst kv) (snd kv)) o base) k v.
Proof.
  intros Hnd Hp. revert base Hnd.
  induction o as [|[k0 w] rest IH]; intros base Hnd;
    cbn [JsObject.defineOwn fold_left fst snd List.map] in *.
  - unfold JsObject.set. rewrite Hp. reflexivity.
  - apply NoDup_cons in Hnd as [Hfresh Hnd].
    destruct (String.eqb_spec k0 k) as [->|Hk0]; cbn [fold_left fst snd].
    + unfold JsObject.set at 2 4. rewrite Hp.
      rewrite <- fold_set_defineOwn_present.
      * rewrite defineOwn_twice. reflexivity.
      * intros Hin. apply Hfresh, list_elem_of_In. assumption.
      * rewrite getOwn_defineOwn, String.eqb_refl. eexists. reflexivity.
    + apply IH. assumption.
Qed.

Lemma fold_set_normalize (kvs base : JsObject.t) :
  fold_left (fun map kv => JsObject.set map (fst kv) (snd kv)) kvs base
  = fold_left (fun map kv => JsObject.set map (fst kv) (snd kv))
      (fold_left (fun map kv => JsObject.set map (fst kv) (snd kv)) kvs []) base.
Proof.
  induction kvs as [|[k v] ks IH] using List.rev_ind.
  - reflexivity.
  - rewrite !List.fold_left_app. cbn [fold_left fst snd].
    assert (Hset : forall o, JsObject.set o k v
                             = if String.eqb k "__proto__" then o
                               else JsObject.defineOwn o k v) by reflexivity.
    rewrite !Hset.
    destruct (String.eqb k "__proto__") eqn:Hp.
    + exact IH.
    + rewrite fold_set_defineOwn.
      * rewrite <- IH. reflexivity.
      * apply fold_set_keys_NoDup. constructor.
      * assumption.
Qed.

Lemma fold_set_entries (entries : list MetadataEntryResult) (o : JsObject.t) :
  fold_left (fun map md => JsObject.set map (data md) (path md)) entries o
  = fold_left (fun map kv => JsObject.set map (fst kv) (snd kv))
      (List.map (fun md => (data md, path md)) entries) o.
Proof.
  revert o. induction entries as [|md rest IH]; intros o; cbn [fold_left List.map].
  - reflexivity.
  - apply IH.
Qed.

(** X7. Metadata in two parts: the map of an artifact whose metadata is
    [earlier ++ later] is the map of the earlier part onto which the
    properties of the map of the later part are assigned in their order;
    under every identifier it holds what the map of the later part holds,
    and what the map of the earlier part holds for the identifiers that
    the later part does not carry. *)
Theorem buildLogicalToPathMap_app :
  forall name tpl (earlier later : list MetadataEntryResult),
    let whole := buildLogicalToPathMap
                   {| stackName := name; template := tpl;
                      metadata := earlier ++ later |} in
    let first := buildLogicalToPathMap
                   {| stackName := name; template := tpl; metadata := earlier |} in
    let second := buildLogicalToPathMap
                    {| stackName := name; template := tpl; metadata := later |} in
    whole
    = fold_left (fun map kv => JsObject.set map (fst kv) (snd kv)) second first
    /\ (forall id,
           JsObject.getOwn whole id
           = match JsObject.getOwn second id with
             | Some p => Some p
             | None => JsObject.getOwn first id
             end).
Proof.
  intros name tpl earlier later whole first second.
  assert (Hwhole : whole
                   = fold_left (fun map md => JsObject.set map (data md) (path md))
                       (findMetadataByType
                          {| stackName := name; template := tpl; metadata := later |}
                          LOGICAL_ID)
                       first).
  { subst whole first. unfold buildLogicalToPathMap, findMetadataByType. simpl.
    rewrite List.filter_app, List.fold_left_app. reflexivity. }
  split.
  - rewrite Hwhole. subst second. unfold buildLogicalToPathMap, JsObject.create.
    rewrite !fold_set_entries. apply fold_set_normalize.
  - intros id. rewrite Hwhole. subst second. unfold buildLogicalToPathMap.
    rewrite !fold_set_getOwn. cbn [JsObject.create JsObject.getOwn].
    destruct (String.eqb id "__proto__"); [reflexivity|].
    destruct (last _); reflexivity.
Qed.

Lemma fold_set_length_ge (entries : list MetadataEntryResult) (o : JsObject.t) :
  List.length o
  <= List.length
       (fold_left (fun map md => JsObject.set map (data md) (path md)) entries o).
Proof.
  revert o. induction entries as [|md rest IH]; intros o; cbn [fold_left].
  - lia.
  - etransitivity; [|apply IH]. unfold JsObject.set.
    destruct (String.eqb (data md) "__proto__"); [lia|].
    generalize (data md) (path md). intros k v.
    induction o as [|[k0 w] tail IHo]; cbn [JsObject.defineOwn List.length]; [lia|].
    destruct (String.eqb k0 k); cbn [List.length]; lia.
Qed.

Lemma fold_set_length_le (entries : list MetadataEntryResult) (o : JsObject.t) :
  List.length
    (fold_left (fun map md => JsObject.set map (data md) (path md)) entries o)
  <= List.length o + List.length entries.
Proof.
  revert o. induction entries as [|md rest IH]; intros o; cbn [fold_left List.length].
  - lia.
  - etransitivity; [apply IH|].
    assert (Hset : List.length (JsObject.set o (data md) (path md))
                   <= S (List.length o)).
    { unfold JsObject.set. destruct (String.eqb (data md) "__proto__"); [lia|].
      generalize (data md) (path md). intros k v.
      induction o as [|[k0 w] tail IHo]; cbn [JsObject.defineOwn List.length]; [lia|].
      destruct (String.eqb k0 k); cbn [List.length]; lia. }
    lia.
Qed.

(** X8. The map is empty exactly when the artifact has no LOGICAL_ID entry
    with an identifier other than '__proto__', and it never has more keys
    than the artifact has LOGICAL_ID entries. *)
Theorem buildLogicalToPathMap_empty_iff :
  forall (stack : CloudFormationStackArtifact),
    (buildLogicalToPathMap stack = []
     <-> List.filter (fun md => negb (String.eqb (data md) "__proto__"))
                     (findMetadataByType stack LOGICAL_ID) = [])
    /\ List.length (buildLogicalToPathMap stack)
       <= List.length (findMetadataByType stack LOGICAL_ID).
Proof.
  intros stack. split; [split|].
  - unfold buildLogicalToPathMap. rewrite fold_set_skip_proto.
    destruct (List.filter _ (findMetadataByType stack LOGICAL_ID)) as [|a rest] eqn:E;
      [reflexivity|].
    intros Hempty. exfalso.
    assert (Ha : negb (String.eqb (data a) "__proto__") = true).
    { assert (Hin : In a (a :: rest)) by (left; reflexivity).
      rewrite <- E in Hin. apply List.filter_In in Hin as [_ Hp]. exact Hp. }
    apply negb_true_iff in Ha.
    cbn [fold_left] in Hempty. unfold JsObject.set at 2 in Hempty.
    rewrite Ha in Hempty. cbn [JsObject.create JsObject.defineOwn] in Hempty.
    pose proof (fold_set_length_ge rest [(data a, path a)]) as Hlen.
    rewrite Hempty in Hlen. cbn [List.length] in Hlen. lia.
  - unfold buildLogicalToPathMap. rewrite fold_set_skip_proto.
    intros ->. reflexivity.
  - unfold buildLogicalToPathMap.
    etransitivity; [apply fold_set_length_le|]. cbn [JsObject.create List.length]. lia.
Qed.

(** * Properties of test/diff.test.ts *)

(** ** The formatter of the test suite behind the reporter *)

Section TestFormatter.

Variable diffTemplate : Json -> Json -> TemplateDiff.
Variable colors_green : string -> string.
Variable JSON_stringify : TestDifferenceFormatter.Any -> string.

(** X9. With the source of the test suite as the only registered source and
    a diff that is not empty, [printStackDiff] makes the formatter write
    five chunks, all to the stream of the call (standard error when none is
    given): the marker of [formatSecurityChanges] first, then the marker of
    [formatDifferences], then the JSON texts of the diff as filtered, of the
    path map of the new artifact and of the context. *)
Theorem printStackDiff_testFormatter_writes :
  forall oldTemplate newTemplate strict context stream,
    let diff :=
      filterMetadataResources strict (diffTemplate oldTemplate (template newTemplate)) in
    isEmpty diff = false ->
    flat_map (writtenByTestFormatter JSON_stringify)
      (effects (printStackDiff diffTemplate colors_green testPlugin oldTemplate
                               newTemplate strict context stream))
    = [ (orStderr stream, "This is TestDifferenceFormatter.formatSecurityChanges");
        (orStderr stream, "This is TestDifferenceFormatter.formatDifferences");
        (orStderr stream, JSON_stringify (TestDifferenceFormatter.ofTemplateDiff diff));
        (orStderr stream,
         JSON_stringify (TestDifferenceFormatter.ofLogicalPathMap
                           (Some (buildLogicalToPathMap newTemplate))));
        (orStderr stream,
         JSON_stringify (TestDifferenceFormatter.ofContext (Some context))) ].
Proof.
  intros oldTemplate newTemplate strict context stream diff Hne.
  rewrite printStackDiff_unfold. cbv zeta. unfold effects. simpl.
  fold diff. rewrite Hne. reflexivity.
Qed.

(** X10. With the source of the test suite as the only registered source,
    a [printSecurityDiff] that asks for approval makes the formatter write
    one chunk only, the marker of [formatSecurityChanges], to standard
    output: the full-diff operation of the formatter is not run. *)
Theorem printSecurityDiff_testFormatter_writes :
  forall oldTemplate newTemplate requireApproval,
    completion (printSecurityDiff diffTemplate testPlugin oldTemplate newTemplate
                                  requireApproval) = Normal true ->
    flat_map (writtenByTestFormatter JSON_stringify)
      (effects (printSecurityDiff diffTemplate testPlugin oldTemplate newTemplate
                                  requireApproval))
    = [ (process_stdout, "This is TestDifferenceFormatter.formatSecurityChanges") ].
Proof.
  intros oldTemplate newTemplate requireApproval.
  rewrite printSecurityDiff_unfold. unfold completion, effects.
  destruct (difRequiresApproval _ _) as [[|]|err]; simpl; try discriminate.
  intros _. reflexivity.
Qed.

End TestFormatter.

Lemma printStackDiff_testFormatter_writes_witness :
  let diff := filterMetadataResources false
                (answering diffBucketAndMetadata (JObject []) (template stackD)) in
  isEmpty diff = false
  /\ flat_map (writtenByTestFormatter stringifyKind)
       (effects (printStackDiff (answering diffBucketAndMetadata) ansiGreen testPlugin
                                (JObject []) stackD false 3 (Some (writable 1))))
     = [ (writable 1, "This is TestDifferenceFormatter.formatSecurityChanges");
         (writable 1, "This is TestDifferenceFormatter.formatDifferences");
         (writable 1, stringifyKind (TestDifferenceFormatter.ofTemplateDiff diff));
         (writable 1,
          stringifyKind (TestDifferenceFormatter.ofLogicalPathMap
                           (Some (buildLogicalToPathMap stackD))));
         (writable 1, stringifyKind (TestDifferenceFormatter.ofContext (Some 3))) ].
Proof.
  intros diff. split; [reflexivity|].
  apply (printStackDiff_testFormatter_writes (answering diffBucketAndMetadata) ansiGreen
           stringifyKind (JObject []) stackD false 3 (Some (writable 1))).
  reflexivity.
Defined.

Lemma printSecurityDiff_testFormatter_writes_witness :
  completion (printSecurityDiff (answering diffBroadened) testPlugin (JObject [])
                                stackD "any-change") = Normal true
  /\ flat_map (writtenByTestFormatter stringifyKind)
       (effects (printSecurityDiff (answering diffBroadened) testPlugin (JObject [])
                                   stackD "any-change"))
     = [ (process_stdout, "This is TestDifferenceFormatter.formatSecurityChanges") ].
Proof.
  split; [reflexivity|].
  apply (printSecurityDiff_testFormatter_writes (answering diffBroadened) stringifyKind
           (JObject []) stackD "any-change").
  reflexivity.
Defined.

(** ** The string stream of the test suite *)

Lemma string_app_assoc (a b c : string) : (a +:+ b) +:+ c = a +:+ (b +:+ c).
Proof.
  induction a as [|ch a IH]; [reflexivity|].
  change (String ch ((a +:+ b) +:+ c) = String ch (a +:+ (b +:+ c))).
  rewrite IH. reflexivity.
Qed.

Lemma string_app_nil_r (a : string) : a +:+ "" = a.
Proof.
  induction a as [|ch a IH]; [reflexivity|].
  change (String ch (a +:+ "") = String ch a).
  rewrite IH. reflexivity.
Qed.

Section StringWritableProperties.

Variable Decoder : Type.
Variable Buffer : Type.
Variable decoder_write : Decoder -> StringWritable.Chunk Buffer -> string * Decoder.
Variable decoder_end : Decoder -> string * Decoder.
Variable Buffer_toString : Buffer -> string.

Lemma step_appends (this : StringWritable.StringWritable Decoder)
    (c : StringWritable.Call Buffer) :
  exists added,
    StringWritable.data
      (StringWritable.step decoder_write decoder_end Buffer_toString this c)
    = StringWritable.data this +:+ added.
Proof.
  destruct c as [chunk encoding|]; simpl.
  - unfold StringWritable._write. destruct (String.eqb encoding "buffer").
    + destruct (decoder_write _ chunk) as [decoded d]. eexists. reflexivity.
    + eexists. reflexivity.
  - unfold StringWritable._final. destruct (decoder_end _) as [rest d].
    eexists. reflexivity.
Qed.

(** X11. The stream only appends: whatever calls of [_write] and [_final]
    are made, with whatever chunks, encodings and decoder, the text
    collected before is a prefix of the text collected after. *)
Theorem StringWritable_append_only :
  forall (calls : list (StringWritable.Call Buffer))
         (this : StringWritable.StringWritable Decoder),
    exists added,
      StringWritable.data
        (StringWritable.run decoder_write decoder_end Buffer_toString calls this)
      = StringWritable.data this +:+ added.
Proof.
  intros calls. unfold StringWritable.run.
  induction calls as [|c rest IH]; intros this; simpl.
  - exists "". symmetry. apply string_app_nil_r.
  - destruct (IH (StringWritable.step decoder_write decoder_end Buffer_toString this c))
      as [more Hmore].
    destruct (step_appends this c) as [added Hadded].
    exists (added +:+ more). rewrite Hmore, Hadded. apply string_app_assoc.
Qed.

(** X12. String chunks written with an encoding other than 'buffer' are
    collected as they are: after the writes the text is the text before
    followed by the chunks in the order written, and the decoder has not
    been used. *)
Theorem StringWritable_collects_strings :
  forall (chunks : list (string * string))
         (this : StringWritable.StringWritable Decoder),
    Forall (fun chunk => snd chunk <> "buffer") chunks ->
    StringWritable.run decoder_write decoder_end Buffer_toString
      (List.map (fun chunk => StringWritable.call_write
                                (StringWritable.text (fst chunk)) (snd chunk))
                chunks)
      this
    = {| StringWritable.data :=
           StringWritable.data this
           +:+ fold_right String.append "" (List.map fst chunks);
         StringWritable._decoder := StringWritable._decoder this |}.
Proof.
  intros chunks. unfold StringWritable.run.
  induction chunks as [|[s encoding] rest IH]; intros this Hall; simpl.
  - rewrite string_app_nil_r. destruct this; reflexivity.
  - apply Forall_cons in Hall as [Henc Hall]. simpl in Henc.
    rewrite IH by assumption.
    unfold StringWritable._write.
    apply String.eqb_neq in Henc. rewrite Henc.
    cbn [StringWritable.data StringWritable._decoder StringWritable.toString].
    rewrite string_app_assoc. reflexivity.
Qed.

End StringWritableProperties.

Lemma StringWritable_collects_strings_witness :
  Forall (fun chunk : string * string => snd chunk <> "buffer")
         [("Stack A", "utf8"); ("Stack B", "utf8")]
  /\ StringWritable.run (fun (d : unit) (_ : StringWritable.Chunk unit) => ("", d))
       (fun d : unit => ("", d)) (fun _ : unit => "")
       (List.map (fun chunk : string * string =>
                    StringWritable.call_write
                      (StringWritable.text (fst chunk)) (snd chunk))
                 [("Stack A", "utf8"); ("Stack B", "utf8")])
       (StringWritable.new tt)
     = {| StringWritable.data :=
            StringWritable.data (StringWritable.new tt)
            +:+ fold_right String.append ""
                  (List.map fst [("Stack A", "utf8"); ("Stack B", "utf8")]);
          StringWritable._decoder := StringWritable._decoder (StringWritable.new tt) |}.
Proof.
  assert (H : Forall (fun chunk : string * string => snd chunk <> "buffer")
                     [("Stack A", "utf8"); ("Stack B", "utf8")])
    by (repeat constructor; discriminate).
  split; [exact H|].
  exact (StringWritable_collects_strings unit unit
           (fun d _ => ("", d)) (fun d => ("", d)) (fun _ => "")
           [("Stack A", "utf8"); ("Stack B", "utf8")] (StringWritable.new tt) H).
Defined.
